(** * hook_open.js: a Frida attach probe, and the host it runs on

    The script is fifteen lines of glue around three host calls:
    [console.log], [setTimeout] and [Java.perform].  It is embedded
    shallowly: a JavaScript function is a Rocq function in a small monad
    [js] that threads the host-visible world, may complete abruptly with a
    thrown error, and collects the timers it registers.  The host (its
    clock, its timer queue, the life of the target process) is a
    deterministic transition function [tick], one step per millisecond. *)

From Stdlib Require Import String Ascii List Arith Bool Lia.
Import ListNotations.

Local Open Scope string_scope.
Local Open Scope list_scope.
Local Open Scope nat_scope.
Set Warnings "-register-all".

(** ** What the host can observe *)

(** One entry of the host's record of a run.  [Log] is a message written
    through [console.log]; its flag says whether the writing code was
    running inside the managed-runtime (Java) context.  The other entries
    are the host's own bookkeeping of the calls made to it. *)
Inductive event : Type :=
| Log (in_vm : bool) (msg : string)
| Scheduled (delay : nat)
| Fired
| PerformRequested
| Entered
| Uncaught (err : string).

(** The part of the host a running callback can see or change. *)
Record world : Type := mkWorld {
  now : nat;                       (* host clock, in milliseconds *)
  java_available : bool;           (* does the target have a Java VM *)
  in_vm : bool;                    (* is the current code inside Java.perform *)
  trace : list (nat * event)       (* time-stamped record, oldest first *)
}.

Definition emit (ev : event) (w : world) : world :=
  {| now := now w; java_available := java_available w; in_vm := in_vm w;
     trace := trace w ++ [(now w, ev)] |}.

Definition set_in_vm (b : bool) (w : world) : world :=
  {| now := now w; java_available := java_available w; in_vm := b;
     trace := trace w |}.

Definition set_now (t : nat) (w : world) : world :=
  {| now := t; java_available := java_available w; in_vm := in_vm w;
     trace := trace w |}.

(** ** The monad of JavaScript code *)

(** How a piece of JavaScript ends: normally with a value, or abruptly
    with a thrown error. *)
Inductive completion (A : Type) : Type :=
| Normal (a : A)
| Throw (err : string).
Arguments Normal {A} a.
Arguments Throw {A} err.

(** A zero-argument JavaScript function handed to the host.  Running it
    changes the world and may register further timers, each a delay and
    another callback. *)
Inductive callback : Type :=
| Callback (body : world -> completion unit * world * list (nat * callback)).

Definition js (A : Type) : Type :=
  world -> completion A * world * list (nat * callback).

Definition ret {A : Type} (a : A) : js A := fun w => (Normal a, w, []).

(** Sequencing.  A throw in the first part skips the second: there is no
    handler unless the code installs one, and the script installs none. *)
Definition bind {A B : Type} (m : js A) (f : A -> js B) : js B :=
  fun w =>
    match m w with
    | (Normal a, w1, rs1) =>
        let '(r, w2, rs2) := f a w1 in (r, w2, rs1 ++ rs2)
    | (Throw err, w1, rs1) => (Throw err, w1, rs1)
    end.

Notation "m1 ;; m2" := (bind m1 (fun _ => m2))
  (at level 61, right associativity).

(** ** The host interface *)

Definition newline : ascii := "010"%char.

Module console.
(** Modelled from the spec: the host's console channel (section 6,
    "a console/log sink").  One call is one message; it cannot fail. *)
Definition log (msg : string) : js unit :=
  fun w => (Normal tt, emit (Log (in_vm w) msg) w, []).
End console.

(** Modelled from the spec: the host's scheduling primitive (section 6,
    "taking a delay in milliseconds and a zero-argument callback").  It
    only registers the callback; the host's loop runs it later.  The timer
    handle it returns is dropped by the script and is not modelled. *)
Definition setTimeout (fn : js unit) (delay : nat) : js unit :=
  fun w => (Normal tt, emit (Scheduled delay) w, [(delay, Callback fn)]).

Module Java.
Definition not_available : string := "Error: Java API not available".

(** Modelled from the spec: the host's entry into the managed-runtime
    context (section 6, "given a zero-argument callback, guarantees it
    executes within a valid managed-runtime context"; section 7, the
    context may not be obtainable, which surfaces as a failure).  When
    the target has a Java VM the callback runs at once, inside the
    context; otherwise the call throws. *)
Definition perform (fn : js unit) : js unit :=
  fun w =>
    let w0 := emit PerformRequested w in
    if java_available w0 then
      let '(r, w1, rs) := fn (set_in_vm true (emit Entered w0)) in
      (r, set_in_vm (in_vm w) w1, rs)
    else (Throw not_available, w0, []).
End Java.

(** ** The script, src/hook_open.js *)

Definition load_marker : string := "[*] 测试脚本(v12)已注入...".
Definition attach_text : string := "[+] 脚本成功在目标进程中运行！".
Definition attach_marker : string := String newline attach_text.
Definition ready_marker : string := "[+] Java 环境准备就绪。".
Definition alive_marker : string :=
  "[+] 如果您能看到这条消息，说明附加成功且程序未崩溃。".

(** The function passed to [Java.perform] (lines 9-13). *)
Definition in_java : js unit :=
  console.log attach_marker ;;
  console.log ready_marker ;;
  console.log alive_marker.

(** The function passed to [setTimeout] (lines 6-15). *)
Definition deferred : js unit :=
  Java.perform in_java.

(** The top level of the script. *)
Definition hook_open : js unit :=
  console.log load_marker ;;
  setTimeout deferred 1000.

(** ** The host's loop *)

(** Modelled from the spec: what a run depends on from outside the script
    (section 7): when it is loaded, whether the target has a managed
    runtime, and how long the target process lives.  [lifetime = Some l]
    says the process is alive up to and including the instant [l]
    milliseconds after load and is gone afterwards; [None] says it is never
    terminated. *)
Record env : Type := mkEnv {
  load_time : nat;
  java_vm : bool;
  lifetime : option nat
}.

Record host : Type := mkHost {
  w : world;
  pending : list (nat * callback);   (* armed timers: due time, callback *)
  alive : bool
}.

(** Timers registered at time [t] fall due [delay] later. *)
Definition arm (t : nat) (rs : list (nat * callback)) : list (nat * callback) :=
  map (fun r => (t + fst r, snd r)) rs.

(** Modelled from the spec: how the host runs one timer callback (section
    7, a failure the probe does not catch is "surfaced by the host
    environment").  An error the callback lets escape ends the callback
    and goes on the host's record. *)
Definition invoke (c : callback) (w0 : world)
  : world * list (nat * callback) :=
  match c with
  | Callback body =>
      match body (emit Fired w0) with
      | (Normal _, w1, rs) => (w1, arm (now w0) rs)
      | (Throw err, w1, rs) => (emit (Uncaught err) w1, arm (now w0) rs)
      end
  end.

(** Modelled from the spec: the one-shot timer (glossary, "fires its
    callback exactly once after a fixed delay, then is discarded").  Every
    armed timer that has fallen due is run and removed from the queue; the
    others stay.  The result is the new world, the timers kept, and the
    timers armed by the callbacks just run. *)
Fixpoint dispatch (ts : list (nat * callback)) (w0 : world)
  : world * list (nat * callback) * list (nat * callback) :=
  match ts with
  | [] => (w0, [], [])
  | (due, c) :: ts' =>
      if due <=? now w0 then
        let '(w1, fresh) := invoke c w0 in
        let '(w2, kept, fresh') := dispatch ts' w1 in
        (w2, kept, fresh ++ fresh')
      else
        let '(w2, kept, fresh') := dispatch ts' w0 in
        (w2, (due, c) :: kept, fresh')
  end.

Definition alive_at (e : env) (t : nat) : bool :=
  match lifetime e with
  | None => true
  | Some l => t <=? load_time e + l
  end.

(** Modelled from the spec: one millisecond of host time (section 5,
    "single-threaded cooperative scheduling"; section 7, a process that
    "exits or is killed before the delay elapses").  A terminated process
    does nothing any more; termination discards whatever timers were still
    armed. *)
Definition tick (e : env) (h : host) : host :=
  if alive h then
    let t := S (now (w h)) in
    if alive_at e t then
      let '(w1, kept, fresh) := dispatch (pending h) (set_now t (w h)) in
      {| w := w1; pending := kept ++ fresh; alive := true |}
    else {| w := w h; pending := []; alive := false |}
  else h.

(** Modelled from the spec: injection (section 2, "load, immediate log,
    schedule single deferred action").  Loading a script runs its top
    level to completion, synchronously, and arms the timers it asked
    for. *)
Definition load (e : env) (script : js unit) : host :=
  let w0 := {| now := load_time e; java_available := java_vm e;
               in_vm := false; trace := [] |} in
  match script w0 with
  | (Normal _, w1, rs) =>
      {| w := w1; pending := arm (load_time e) rs; alive := true |}
  | (Throw err, w1, rs) =>
      {| w := emit (Uncaught err) w1; pending := arm (load_time e) rs;
         alive := true |}
  end.

(** Applies [f] to [x], [n] times. *)
Fixpoint iterate {A : Type} (n : nat) (f : A -> A) (x : A) : A :=
  match n with
  | O => x
  | S n' => f (iterate n' f x)
  end.

(** The host [n] milliseconds after it loaded the probe. *)
Definition run (e : env) (n : nat) : host :=
  iterate n (tick e) (load e hook_open).

(** ** Observations *)

(** The console channel: the messages written, with their time. *)
Fixpoint console (tr : list (nat * event)) : list (nat * string) :=
  match tr with
  | [] => []
  | (t, Log _ msg) :: tr' => (t, msg) :: console tr'
  | _ :: tr' => console tr'
  end.

Definition output (h : host) : list (nat * string) := console (trace (w h)).

Definition messages (h : host) : list string := map snd (output h).

Definition event_eqb (a b : event) : bool :=
  match a, b with
  | Log i m, Log j k => Bool.eqb i j && String.eqb m k
  | Scheduled d, Scheduled d' => d =? d'
  | Fired, Fired => true
  | PerformRequested, PerformRequested => true
  | Entered, Entered => true
  | Uncaught x, Uncaught y => String.eqb x y
  | _, _ => false
  end.

(** How often an event occurs in a record. *)
Definition occurrences (ev : event) (tr : list (nat * event)) : nat :=
  length (filter (fun p => event_eqb ev (snd p)) tr).

(** The timers registered so far: time of the call and delay asked for. *)
Fixpoint schedulings (tr : list (nat * event)) : list (nat * nat) :=
  match tr with
  | [] => []
  | (t, Scheduled d) :: tr' => (t, d) :: schedulings tr'
  | _ :: tr' => schedulings tr'
  end.

(** The errors the host had to surface because nothing caught them. *)
Fixpoint uncaught (tr : list (nat * event)) : list (nat * string) :=
  match tr with
  | [] => []
  | (t, Uncaught err) :: tr' => (t, err) :: uncaught tr'
  | _ :: tr' => uncaught tr'
  end.

(** A run is complete once the timer has fired and the callback given to
    [Java.perform] has been entered. *)
Definition complete (h : host) : bool :=
  (0 <? occurrences Fired (trace (w h)))
  && (0 <? occurrences Entered (trace (w h))).

(** The text a terminal shows: every message is followed by a line break. *)
Fixpoint render (msgs : list string) : string :=
  match msgs with
  | [] => EmptyString
  | m :: msgs' => String.append m (String newline (render msgs'))
  end.

(** The lines of a text, each ended by a line break (a last line without
    one counts too). *)
Fixpoint lines (s : string) : list string :=
  match s with
  | EmptyString => []
  | String c s' =>
      if Ascii.eqb c newline then EmptyString :: lines s'
      else match lines s' with
           | [] => [String c EmptyString]
           | l :: ls => String c l :: ls
           end
  end.

Definition is_blank (l : string) : bool := String.eqb l EmptyString.

(** Every blank line of [ls] has [next] as the line right after it. *)
Fixpoint blank_then (next : string) (ls : list string) : bool :=
  match ls with
  | [] => true
  | l :: ls' =>
      (if is_blank l
       then match ls' with
            | l' :: _ => String.eqb l' next
            | [] => false
            end
       else true)
      && blank_then next ls'
  end.

(** How often the message [m] was written in the run so far. *)
Definition times_written (m : string) (h : host) : nat :=
  length (filter (String.eqb m) (messages h)).

(** The messages that were written outside the managed-runtime context. *)
Fixpoint outside (tr : list (nat * event)) : list string :=
  match tr with
  | [] => []
  | (_, Log false msg) :: tr' => msg :: outside tr'
  | _ :: tr' => outside tr'
  end.


(** ** The three phases of a run *)

(** Does the process live at least [d] milliseconds after load. *)
Definition survives (e : env) (d : nat) : bool :=
  match lifetime e with
  | None => true
  | Some l => d <=? l
  end.

(** Has the timer of a run in [e] fired by [n] milliseconds after load. *)
Definition timer_fired (e : env) (n : nat) : bool :=
  (1000 <=? n) && survives e 1000.

(** The record right after load. *)
Definition loaded_trace (e : env) : list (nat * event) :=
  [(load_time e, Log false load_marker); (load_time e, Scheduled 1000)].

(** What the firing of the timer adds to the record. *)
Definition late_trace (e : env) : list (nat * event) :=
  let t := load_time e + 1000 in
  if java_vm e then
    [(t, Fired); (t, PerformRequested); (t, Entered);
     (t, Log true attach_marker); (t, Log true ready_marker);
     (t, Log true alive_marker)]
  else
    [(t, Fired); (t, PerformRequested); (t, Uncaught Java.not_available)].

(** Loaded and waiting for the timer, [n] milliseconds after load. *)
Definition waiting (e : env) (n : nat) : host :=
  {| w := {| now := load_time e + n; java_available := java_vm e;
             in_vm := false; trace := loaded_trace e |};
     pending := [(load_time e + 1000, Callback deferred)];
     alive := true |}.

(** The timer has fired; nothing is left to do. *)
Definition fired (e : env) (n : nat) : host :=
  {| w := {| now := load_time e + n; java_available := java_vm e;
             in_vm := false; trace := loaded_trace e ++ late_trace e |};
     pending := [];
     alive := true |}.

(** The process was terminated after living [l] milliseconds. *)
Definition terminated (e : env) (l : nat) : host :=
  {| w := {| now := load_time e + l; java_available := java_vm e;
             in_vm := false;
             trace := loaded_trace e
                      ++ (if 1000 <=? l then late_trace e else []) |};
     pending := [];
     alive := false |}.

(** The state of the host [n] milliseconds after load, in closed form. *)
Definition phase (e : env) (n : nat) : host :=
  match lifetime e with
  | Some l =>
      if n <=? l then (if n <? 1000 then waiting e n else fired e n)
      else terminated e l
  | None => if n <? 1000 then waiting e n else fired e n
  end.

(** Sample environments: a target with a Java VM that is never
    terminated, one that is terminated half a second after load, one
    without a Java VM, and one with a VM loaded late and terminated after
    three seconds. *)
Definition live_target : env := mkEnv 0 true None.
Definition short_lived_target : env := mkEnv 0 true (Some 500).
Definition native_target : env := mkEnv 0 false None.
Definition other_target : env := mkEnv 40 true (Some 3000).

(** * Proofs *)

Section Phases.
Variable e : env.

Lemma alive_at_survives (d : nat) :
  alive_at e (load_time e + d) = survives e d.
Proof.
  unfold alive_at, survives. destruct (lifetime e) as [l|]; trivial.
  destruct (Nat.leb_spec d l), (Nat.leb_spec (load_time e + d) (load_time e + l));
    trivial; lia.
Qed.

Lemma load_waiting : load e hook_open = waiting e 0.
Proof. unfold waiting. rewrite Nat.add_0_r. reflexivity. Qed.

Lemma tick_waiting (n : nat) :
  survives e (S n) = true -> S n < 1000 ->
  tick e (waiting e n) = waiting e (S n).
Proof.
  intros Hs Hn. unfold tick, waiting. cbn [alive w now pending].
  replace (S (load_time e + n)) with (load_time e + S n) by lia.
  rewrite alive_at_survives, Hs.
  cbn [dispatch set_now now java_available in_vm trace].
  destruct (Nat.leb_spec (load_time e + 1000) (load_time e + S n)); [lia|].
  reflexivity.
Qed.

Lemma tick_fire :
  survives e 1000 = true -> tick e (waiting e 999) = fired e 1000.
Proof.
  intros Hs. unfold tick, waiting. cbn [alive w now pending].
  replace (S (load_time e + 999)) with (load_time e + 1000) by lia.
  rewrite alive_at_survives, Hs.
  cbn [dispatch set_now now java_available in_vm trace].
  rewrite Nat.leb_refl.
  unfold fired, late_trace. destruct (java_vm e); reflexivity.
Qed.

Lemma tick_fired (n : nat) :
  survives e (S n) = true -> tick e (fired e n) = fired e (S n).
Proof.
  intros Hs. unfold tick, fired. cbn [alive w now pending].
  replace (S (load_time e + n)) with (load_time e + S n) by lia.
  rewrite alive_at_survives, Hs. reflexivity.
Qed.

Lemma tick_kill_waiting (n : nat) :
  survives e (S n) = false -> n < 1000 ->
  tick e (waiting e n) = terminated e n.
Proof.
  intros Hs Hn. unfold tick, waiting. cbn [alive w now pending].
  replace (S (load_time e + n)) with (load_time e + S n) by lia.
  rewrite alive_at_survives, Hs. unfold terminated.
  destruct (Nat.leb_spec 1000 n); [lia|]. rewrite app_nil_r. reflexivity.
Qed.

Lemma tick_kill_fired (n : nat) :
  survives e (S n) = false -> 1000 <= n ->
  tick e (fired e n) = terminated e n.
Proof.
  intros Hs Hn. unfold tick, fired. cbn [alive w now pending].
  replace (S (load_time e + n)) with (load_time e + S n) by lia.
  rewrite alive_at_survives, Hs. unfold terminated.
  destruct (Nat.leb_spec 1000 n); [|lia]. reflexivity.
Qed.

Lemma tick_terminated (l : nat) : tick e (terminated e l) = terminated e l.
Proof. reflexivity. Qed.

Lemma run_S (n : nat) : run e (S n) = tick e (run e n).
Proof. reflexivity. Qed.

(** The run goes through the phases and nothing else. *)
Lemma run_phase (n : nat) : run e n = phase e n.
Proof.
  induction n as [|n IH].
  - unfold run, phase; cbn [iterate]. rewrite load_waiting.
    destruct (lifetime e); reflexivity.
  - rewrite run_S, IH. unfold phase.
    destruct (lifetime e) as [l|] eqn:Hl.
    + assert (Hsv : forall d, survives e d = (d <=? l))
        by (intro d; unfold survives; rewrite Hl; reflexivity).
      destruct (Nat.leb_spec n l) as [Hnl|Hnl];
        destruct (Nat.leb_spec (S n) l) as [Hsl|Hsl]; try lia.
      * destruct (Nat.ltb_spec n 1000) as [H1|H1];
          destruct (Nat.ltb_spec (S n) 1000) as [H2|H2]; try lia.
        -- apply tick_waiting; [rewrite Hsv; apply Nat.leb_le|]; lia.
        -- assert (n = 999) by lia; subst n.
           apply tick_fire. rewrite Hsv. apply Nat.leb_le; lia.
        -- apply tick_fired. rewrite Hsv. apply Nat.leb_le; lia.
      * assert (l = n) by lia; subst l.
        destruct (Nat.ltb_spec n 1000) as [H1|H1].
        -- apply tick_kill_waiting; [rewrite Hsv; apply Nat.leb_gt|]; lia.
        -- apply tick_kill_fired; [rewrite Hsv; apply Nat.leb_gt|]; lia.
      * apply tick_terminated.
    + assert (Hsv : forall d, survives e d = true)
        by (intro d; unfold survives; rewrite Hl; reflexivity).
      destruct (Nat.ltb_spec n 1000) as [H1|H1];
        destruct (Nat.ltb_spec (S n) 1000) as [H2|H2]; try lia.
      * apply tick_waiting; [apply Hsv | lia].
      * assert (n = 999) by lia; subst n. apply tick_fire, Hsv.
      * apply tick_fired, Hsv.
Qed.
End Phases.

(** ** The record of a run *)

Lemma run_trace (e : env) (n : nat) :
  trace (w (run e n))
  = loaded_trace e ++ (if timer_fired e n then late_trace e else []).
Proof.
  rewrite run_phase.
  unfold phase, timer_fired, survives, waiting, fired, terminated.
  destruct (lifetime e) as [l|].
  - destruct (Nat.leb_spec n l); [destruct (Nat.ltb_spec n 1000)|];
      destruct (Nat.leb_spec 1000 n); destruct (Nat.leb_spec 1000 l);
      try lia; cbn [w trace andb];
      rewrite ?app_nil_r; reflexivity.
  - destruct (Nat.ltb_spec n 1000); destruct (Nat.leb_spec 1000 n);
      try lia; cbn [w trace andb];
      rewrite ?app_nil_r; reflexivity.
Qed.

Lemma run_pending (e : env) (n : nat) :
  pending (run e n) = [] \/
  pending (run e n) = [(load_time e + 1000, Callback deferred)].
Proof.
  rewrite run_phase. unfold phase.
  destruct (lifetime e) as [l|];
    repeat match goal with |- context [if ?b then _ else _] => destruct b end;
    cbn; auto.
Qed.

Lemma complete_inv (e : env) (n : nat) :
  complete (run e n) = true -> java_vm e = true /\ timer_fired e n = true.
Proof.
  unfold complete. rewrite run_trace. unfold late_trace.
  destruct (timer_fired e n); destruct (java_vm e); cbn;
    intros H; try discriminate H; auto.
Qed.

Lemma complete_trace (e : env) (n : nat) :
  complete (run e n) = true ->
  trace (w (run e n)) = loaded_trace e ++ late_trace e.
Proof.
  intros H. destruct (complete_inv e n H) as [_ Hf].
  rewrite run_trace, Hf. reflexivity.
Qed.

Lemma timer_fired_survivor (e : env) (n : nat) :
  survives e 1000 = true -> 1000 <= n -> timer_fired e n = true.
Proof.
  intros Hs Hn. unfold timer_fired. rewrite Hs.
  destruct (Nat.leb_spec 1000 n); [reflexivity | lia].
Qed.

Lemma timer_not_fired_short_life (e : env) (n l : nat) :
  lifetime e = Some l -> l < 1000 -> timer_fired e n = false.
Proof.
  intros Hl Hlt. unfold timer_fired, survives. rewrite Hl.
  destruct (Nat.leb_spec 1000 l); [lia|]. apply andb_false_r.
Qed.

Lemma run_output (e : env) (n : nat) :
  output (run e n)
  = (load_time e, load_marker)
    :: (if timer_fired e n && java_vm e
        then [(load_time e + 1000, attach_marker);
              (load_time e + 1000, ready_marker);
              (load_time e + 1000, alive_marker)]
        else []).
Proof.
  unfold output. rewrite run_trace. unfold late_trace.
  destruct (timer_fired e n); destruct (java_vm e); reflexivity.
Qed.

Lemma run_messages (e : env) (n : nat) :
  messages (run e n)
  = load_marker
    :: (if timer_fired e n && java_vm e
        then [attach_marker; ready_marker; alive_marker] else []).
Proof.
  unfold messages. rewrite run_output.
  destruct (timer_fired e n && java_vm e); reflexivity.
Qed.

Lemma complete_messages (e : env) (n : nat) :
  complete (run e n) = true ->
  messages (run e n)
  = [load_marker; attach_marker; ready_marker; alive_marker].
Proof.
  intros H. destruct (complete_inv e n H) as [Hj Hf].
  rewrite run_messages, Hj, Hf. reflexivity.
Qed.

(** * The claims *)

(** C1.  In a complete run (the timer has fired and the callback given to
    [Java.perform] has been entered) the console holds exactly four
    messages, in the order load marker, attachment marker, readiness
    marker, no-crash marker; the first is stamped with the load time and
    the other three with the load time plus the delay of 1000 ms.  Seen as
    text, these are four non-blank lines. *)
Theorem complete_run_four_messages (e : env) (n : nat) :
  complete (run e n) = true ->
  output (run e n)
  = [(load_time e, load_marker);
     (load_time e + 1000, attach_marker);
     (load_time e + 1000, ready_marker);
     (load_time e + 1000, alive_marker)]
  /\ length (output (run e n)) = 4
  /\ length (filter (fun l => negb (is_blank l))
               (lines (render (messages (run e n))))) = 4.
Proof.
  intros H. rewrite (complete_messages e n H).
  destruct (complete_inv e n H) as [Hj Hf].
  rewrite run_output, Hj, Hf. repeat split; reflexivity.
Qed.

Lemma complete_run_four_messages_witness :
  complete (run live_target 1000) = true
  /\ output (run live_target 1000)
     = [(0, load_marker); (1000, attach_marker);
        (1000, ready_marker); (1000, alive_marker)].
Proof.
  split; [reflexivity|].
  apply (complete_run_four_messages live_target 1000). reflexivity.
Defined.

(** C3.  Whatever the environment, the load marker is on the console as
    soon as the script has been loaded (before the host has taken a single
    step), stamped with the load time; it is the first entry of the host's
    record and of the console at every later time, and it is never written
    again. *)
Theorem load_marker_first_and_once (e : env) (n : nat) :
  output (load e hook_open) = [(load_time e, load_marker)]
  /\ (exists rest,
        trace (w (run e n)) = (load_time e, Log false load_marker) :: rest)
  /\ (exists rest,
        output (run e n) = (load_time e, load_marker) :: rest
        /\ ~ In load_marker (map snd rest))
  /\ times_written load_marker (run e n) = 1.
Proof.
  split; [reflexivity|]. split; [|split].
  - rewrite run_trace. unfold loaded_trace. eexists. reflexivity.
  - rewrite run_output. eexists. split; [reflexivity|].
    destruct (timer_fired e n && java_vm e); cbn.
    + intros [H|[H|[H|[]]]]; discriminate H.
    + intros [].
  - unfold times_written. rewrite run_messages.
    destruct (timer_fired e n && java_vm e); reflexivity.
Qed.

(** C4.  In every run and at every time the deferred action has been
    invoked at most once: the host's record holds at most one firing, and
    a step of the host never adds a firing to a record that has one. *)
Theorem deferred_invoked_at_most_once (e : env) (n : nat) :
  occurrences Fired (trace (w (run e n))) <= 1
  /\ (occurrences Fired (trace (w (run e n))) = 1 ->
      occurrences Fired (trace (w (tick e (run e n)))) = 1).
Proof.
  assert (Hocc : forall k,
    occurrences Fired (trace (w (run e k)))
    = if timer_fired e k then 1 else 0).
  { intro k. rewrite run_trace. unfold late_trace.
    destruct (timer_fired e k); destruct (java_vm e); reflexivity. }
  split.
  - rewrite Hocc. destruct (timer_fired e n); lia.
  - rewrite <- run_S, !Hocc. unfold timer_fired.
    destruct (survives e 1000); rewrite ?andb_false_r; trivial.
    rewrite !andb_true_r.
    destruct (Nat.leb_spec 1000 n); destruct (Nat.leb_spec 1000 (S n));
      trivial; lia.
Qed.

Lemma deferred_invoked_at_most_once_witness :
  occurrences Fired (trace (w (run live_target 1000))) = 1
  /\ occurrences Fired (trace (w (tick live_target (run live_target 1000)))) = 1.
Proof.
  split; [reflexivity|].
  apply (deferred_invoked_at_most_once live_target 1000). reflexivity.
Defined.

(** C6.  The script registers exactly one timer, at load, with a delay of
    exactly 1000 ms: after load one timer is armed, due 1000 ms after the
    load time, and at every later time the host's record holds that one
    registration and no other; the deferred action registers none, and
    whatever is armed at any time is that same timer. *)
Theorem one_timer_fixed_delay (e : env) (n : nat) :
  pending (load e hook_open) = [(load_time e + 1000, Callback deferred)]
  /\ schedulings (trace (w (run e n))) = [(load_time e, 1000)]
  /\ (forall w0, snd (deferred w0) = [])
  /\ (pending (run e n) = [] \/
      pending (run e n) = [(load_time e + 1000, Callback deferred)]).
Proof.
  split; [reflexivity|]. split; [|split].
  - rewrite run_trace. unfold late_trace.
    destruct (timer_fired e n); destruct (java_vm e); reflexivity.
  - intros [t j v tr]. unfold deferred, Java.perform. cbn.
    destruct j; reflexivity.
  - apply run_pending.
Qed.

(** C7.  If the process is terminated less than 1000 ms after load, then
    at every time the console holds the load marker and nothing else, the
    timer has not fired, and the host's record is the one load left. *)
Theorem short_life_only_load_marker (e : env) (n l : nat) :
  lifetime e = Some l -> l < 1000 ->
  output (run e n) = [(load_time e, load_marker)]
  /\ occurrences Fired (trace (w (run e n))) = 0
  /\ trace (w (run e n)) = trace (w (load e hook_open)).
Proof.
  intros Hl Hlt.
  pose proof (timer_not_fired_short_life e n l Hl Hlt) as Hf.
  rewrite run_output, run_trace, Hf. cbn [andb].
  rewrite app_nil_r. repeat split; reflexivity.
Qed.

Lemma short_life_only_load_marker_witness :
  lifetime short_lived_target = Some 500 /\ 500 < 1000
  /\ output (run short_lived_target 2000) = [(0, load_marker)].
Proof.
  split; [reflexivity|]. split; [lia|].
  apply (short_life_only_load_marker short_lived_target 2000 500);
    [reflexivity | lia].
Defined.

(** C2, as stated, fails: a target without a Java VM that is never
    terminated survives the 1000 ms, and two seconds after load its
    console still holds the load marker alone: none of the three late
    lines was written. *)
Lemma survivor_without_vm_stays_silent :
  survives native_target 1000 = true
  /\ messages (run native_target 2000) = [load_marker]
  /\ times_written attach_marker (run native_target 2000) = 0
  /\ times_written ready_marker (run native_target 2000) = 0
  /\ times_written alive_marker (run native_target 2000) = 0.
Proof. repeat split; reflexivity. Qed.

(** C2, amended.  If the process survives at least 1000 ms after load and
    the managed-runtime context can be obtained, then from 1000 ms after
    load on each of the three late lines has been written exactly once,
    in the order attachment, readiness, no-crash, and all three come after
    the load marker, at a strictly later time. *)
Theorem survivor_with_vm_attaches (e : env) (n : nat) :
  survives e 1000 = true -> java_vm e = true -> 1000 <= n ->
  (exists late,
      output (run e n) = (load_time e, load_marker) :: late
      /\ map snd late = [attach_marker; ready_marker; alive_marker]
      /\ Forall (fun p => load_time e < fst p) late)
  /\ times_written attach_marker (run e n) = 1
  /\ times_written ready_marker (run e n) = 1
  /\ times_written alive_marker (run e n) = 1.
Proof.
  intros Hs Hj Hn. pose proof (timer_fired_survivor e n Hs Hn) as Hf.
  unfold times_written. rewrite run_output, run_messages, Hf, Hj. cbn [andb].
  split; [|repeat split; reflexivity].
  eexists. split; [reflexivity|]. split; [reflexivity|].
  repeat constructor; cbn [fst]; lia.
Qed.

Lemma survivor_with_vm_attaches_witness :
  survives other_target 1000 = true /\ java_vm other_target = true
  /\ 1000 <= 2500
  /\ times_written attach_marker (run other_target 2500) = 1
  /\ times_written ready_marker (run other_target 2500) = 1
  /\ times_written alive_marker (run other_target 2500) = 1.
Proof.
  split; [reflexivity|]. split; [reflexivity|]. split; [lia|].
  apply (survivor_with_vm_attaches other_target 2500);
    [reflexivity | reflexivity | lia].
Defined.

(** C5.  All the deferred action does, in any world, is ask for the
    managed-runtime context and, when it gets it, write the three late
    lines from inside it; when it does not get it, it throws.  It arms no
    timer.  Over a whole run the only message written outside the context
    is the load marker. *)
Theorem deferred_action_behaviour (w0 : world) :
  deferred w0
  = (if java_available w0
     then (Normal tt,
           {| now := now w0; java_available := java_available w0;
              in_vm := in_vm w0;
              trace := trace w0
                       ++ [(now w0, PerformRequested); (now w0, Entered);
                           (now w0, Log true attach_marker);
                           (now w0, Log true ready_marker);
                           (now w0, Log true alive_marker)] |},
           [])
     else (Throw Java.not_available,
           {| now := now w0; java_available := java_available w0;
              in_vm := in_vm w0;
              trace := trace w0 ++ [(now w0, PerformRequested)] |},
           []))
  /\ forall e n, outside (trace (w (run e n))) = [load_marker].
Proof.
  split.
  - destruct w0 as [t j v tr]. unfold deferred, Java.perform.
    cbn [emit java_available now in_vm trace].
    destruct j; [|reflexivity].
    unfold in_java, bind, console.log, set_in_vm, emit.
    cbn [java_available now in_vm trace app].
    rewrite <- !app_assoc. reflexivity.
  - intros e n. rewrite run_trace. unfold late_trace.
    destruct (timer_fired e n); destruct (java_vm e); reflexivity.
Qed.

(** C8.  In a target without a managed runtime the probe reports nothing
    and retries nothing: at every time the console holds the load marker
    alone and the host's record holds the one registration made at load.
    The deferred action ends by throwing, having asked for the context and
    done nothing else; no handler of the probe sees the error, which
    reaches the host once, when the timer fires. *)
Theorem no_vm_failure_unhandled (e : env) (n : nat) :
  java_vm e = false ->
  messages (run e n) = [load_marker]
  /\ schedulings (trace (w (run e n))) = [(load_time e, 1000)]
  /\ uncaught (trace (w (run e n)))
     = (if timer_fired e n
        then [(load_time e + 1000, Java.not_available)] else [])
  /\ (pending (run e n) = [] \/ timer_fired e n = false)
  /\ (forall w0, java_available w0 = false ->
        deferred w0
        = (Throw Java.not_available, emit PerformRequested w0, [])).
Proof.
  intros Hj. rewrite run_messages, run_trace, Hj, andb_false_r.
  unfold late_trace. rewrite Hj.
  split; [reflexivity|]. split; [|split; [|split]].
  - destruct (timer_fired e n); reflexivity.
  - destruct (timer_fired e n); reflexivity.
  - rewrite run_phase. unfold phase, timer_fired, survives.
    destruct (lifetime e) as [l|].
    + destruct (Nat.leb_spec n l); [destruct (Nat.ltb_spec n 1000)|];
        destruct (Nat.leb_spec 1000 n); destruct (Nat.leb_spec 1000 l);
        cbn; auto; lia.
    + destruct (Nat.ltb_spec n 1000); destruct (Nat.leb_spec 1000 n);
        cbn; auto; lia.
  - intros [t j v tr] Hw. cbn in Hw. subst j. reflexivity.
Qed.

Lemma no_vm_failure_unhandled_witness :
  java_vm native_target = false
  /\ messages (run native_target 2000) = [load_marker]
  /\ uncaught (trace (w (run native_target 2000)))
     = [(1000, Java.not_available)].
Proof.
  split; [reflexivity|].
  destruct (no_vm_failure_unhandled native_target 2000 eq_refl)
    as [Hm [_ [Hu _]]].
  split; [exact Hm | exact Hu].
Defined.

(** Between two writes the console holds a prefix of the messages of the
    run; whatever prefix of a complete run it holds, a blank line on the
    terminal has the attachment text right below it. *)
Lemma prefix_blank_then_attach (k : nat) :
  blank_then attach_text
    (lines (render (firstn k [load_marker; attach_marker;
                              ready_marker; alive_marker]))) = true.
Proof.
  do 4 (destruct k as [|k]; [reflexivity|]). destruct k; reflexivity.
Qed.

(** C9.  A complete run makes exactly four writes to the console, and the
    terminal shows five lines: the second write begins with a line break,
    so it alone yields the blank line and the attachment line.  At no
    moment between writes is there a blank line without the attachment
    line right after it. *)
Theorem four_writes_five_lines (e : env) (n : nat) :
  complete (run e n) = true ->
  length (messages (run e n)) = 4
  /\ lines (render (messages (run e n)))
     = [load_marker; EmptyString; attach_text; ready_marker; alive_marker]
  /\ length (lines (render (messages (run e n)))) = 5
  /\ nth_error (messages (run e n)) 1 = Some (String newline attach_text)
  /\ lines (render [String newline attach_text])
     = [EmptyString; attach_text]
  /\ forall k,
       blank_then attach_text
         (lines (render (firstn k (messages (run e n))))) = true.
Proof.
  intros H. rewrite (complete_messages e n H).
  repeat split; try reflexivity. apply prefix_blank_then_attach.
Qed.

Lemma four_writes_five_lines_witness :
  complete (run live_target 1000) = true
  /\ length (messages (run live_target 1000)) = 4
  /\ length (lines (render (messages (run live_target 1000)))) = 5.
Proof.
  split; [reflexivity|].
  destruct (four_writes_five_lines live_target 1000 eq_refl)
    as [H4 [_ [H5 _]]].
  split; [exact H4 | exact H5].
Defined.

(** C10.  Any two complete runs write the same messages, the four
    constants of the script in the same order, whatever their load time,
    the life of their process and the time they are looked at. *)
Theorem complete_runs_same_messages (e e' : env) (n n' : nat) :
  complete (run e n) = true -> complete (run e' n') = true ->
  messages (run e n) = messages (run e' n')
  /\ messages (run e n)
     = [load_marker; attach_marker; ready_marker; alive_marker].
Proof.
  intros H H'.
  rewrite (complete_messages e n H), (complete_messages e' n' H').
  split; reflexivity.
Qed.

Lemma complete_runs_same_messages_witness :
  complete (run live_target 1000) = true
  /\ complete (run other_target 2500) = true
  /\ messages (run live_target 1000) = messages (run other_target 2500).
Proof.
  split; [reflexivity|]. split; [reflexivity|].
  apply (complete_runs_same_messages live_target other_target 1000 2500);
    reflexivity.
Defined.

(** * Further properties of the script *)

Lemma timer_fired_early (e : env) (n : nat) :
  n < 1000 -> timer_fired e n = false.
Proof.
  intros Hn. unfold timer_fired.
  destruct (Nat.leb_spec 1000 n); [lia | reflexivity].
Qed.


Lemma timer_fired_settled (e : env) (n : nat) :
  1000 <= n -> timer_fired e n = timer_fired e 1000.
Proof.
  intros Hn. unfold timer_fired.
  destruct (Nat.leb_spec 1000 n); [reflexivity | lia].
Qed.

(** X1.  Less than 1000 ms after load nothing of the deferred action has
    happened, in any target: the console holds the load marker alone, the
    host's record is the one load left, and it does not matter whether the
    target has a Java VM, since the script asks for it only inside the
    timer's callback. *)
Theorem nothing_late_before_delay (e : env) (n : nat) :
  n < 1000 ->
  messages (run e n) = [load_marker]
  /\ trace (w (run e n)) = trace (w (load e hook_open))
  /\ occurrences PerformRequested (trace (w (run e n))) = 0
  /\ trace (w (run e n))
     = trace (w (run (mkEnv (load_time e) (negb (java_vm e)) (lifetime e)) n)).
Proof.
  intros Hn. rewrite run_messages, !run_trace.
  rewrite !(timer_fired_early _ n Hn). cbn [andb]. rewrite !app_nil_r.
  repeat split; reflexivity.
Qed.

Lemma nothing_late_before_delay_witness :
  999 < 1000 /\ messages (run live_target 999) = [load_marker].
Proof.
  split; [lia|].
  apply (nothing_late_before_delay live_target 999). lia.
Defined.


(** X3.  From 1000 ms after load on the run is settled: the host's record
    is the one of the instant 1000 ms after load and no timer is armed, so
    the probe leaves nothing behind that could act later. *)
Theorem settled_after_delay (e : env) (n : nat) :
  1000 <= n ->
  trace (w (run e n)) = trace (w (run e 1000))
  /\ pending (run e n) = [].
Proof.
  intros Hn. split.
  - rewrite !run_trace, (timer_fired_settled e n Hn). reflexivity.
  - rewrite run_phase. unfold phase.
    destruct (lifetime e) as [l|].
    + destruct (Nat.leb_spec n l); [|reflexivity].
      destruct (Nat.ltb_spec n 1000); [lia | reflexivity].
    + destruct (Nat.ltb_spec n 1000); [lia | reflexivity].
Qed.

Lemma settled_after_delay_witness :
  1000 <= 2500
  /\ trace (w (run other_target 2500)) = trace (w (run other_target 1000))
  /\ pending (run other_target 2500) = [].
Proof.
  split; [lia|].
  apply (settled_after_delay other_target 2500). lia.
Defined.

(** X4.  The host never has to surface an error of the probe in a target
    that has a Java VM, nor in any target during the first 1000 ms: the
    only statement of the script that can throw is the call of
    [Java.perform], and loading the script never throws. *)
Theorem no_error_with_vm_or_early (e : env) (n : nat) :
  java_vm e = true \/ n < 1000 ->
  uncaught (trace (w (run e n))) = []
  /\ (forall w0, fst (fst (hook_open w0)) = Normal tt).
Proof.
  intros H. split; [|intro w0; reflexivity].
  rewrite run_trace. unfold late_trace.
  destruct H as [Hj|Hn].
  - rewrite Hj. destruct (timer_fired e n); reflexivity.
  - rewrite (timer_fired_early e n Hn). reflexivity.
Qed.

Lemma no_error_with_vm_or_early_witness :
  (java_vm other_target = true \/ 2500 < 1000)
  /\ uncaught (trace (w (run other_target 2500))) = [].
Proof.
  split; [left; reflexivity|].
  apply (no_error_with_vm_or_early other_target 2500). left. reflexivity.
Defined.

(** X5.  No message is ever written twice: in every run and at every time
    the messages on the console are pairwise different. *)
Theorem no_message_repeated (e : env) (n : nat) :
  NoDup (messages (run e n)).
Proof.
  rewrite run_messages.
  destruct (timer_fired e n && java_vm e).
  - repeat constructor; cbn;
      repeat (let H := fresh in intros [H|H]; [discriminate H | revert H]);
      intros [].
  - repeat constructor. intros [].
Qed.
